(** * opensock: handing a raw packet socket to a child at descriptor 42

    A shallow embedding of [src/opensock.c].  The program is a straight
    line of library calls, so it is modelled as a computation in a small
    state monad over the per-process kernel state (descriptor table, socket
    objects, [errno]); every call is logged, with the state it was entered
    in and the value it returned, so that ordering properties and "the
    state at the moment of call X" can be stated.  A successful [execvp]
    does not return: the monad has a second outcome for it.

    The C program is [main]; everything before it is the environment it
    runs in (the libc and kernel calls it makes), written after their
    manual pages and, for [if_nametoindex] and [execvp], after what the C
    library does. *)

From Stdlib Require Import ZArith.
From Stdlib.Strings Require Import Byte Ascii String.
From stdpp Require Import gmap strings list.

Local Open Scope Z_scope.

(** ** Constants and types of the system headers *)

Module Linux.
(** <sys/socket.h>, <netpacket/packet.h>, <bits/socket.h> on Linux. *)
Definition AF_PACKET : Z := 17.
Definition SOCK_DGRAM : Z := 2.
Definition SOCK_RAW : Z := 3.
Definition SOCK_PACKET : Z := 10.
Definition SOL_PACKET : Z := 263.
Definition PACKET_ADD_MEMBERSHIP : Z := 1.
Definition PACKET_MR_MULTICAST : Z := 0.
(** [sizeof (struct packet_mreq)]: int, two unsigned shorts, eight bytes. *)
Definition sizeof_packet_mreq : Z := 16.
(** <net/if.h>, <paths.h>, and the value of [confstr (_CS_PATH)]. *)
Definition IFNAMSIZ : nat := 16.
Definition _PATH_BSHELL : string := "/bin/sh".
Definition CS_PATH : string := "/bin:/usr/bin".
End Linux.

(** The error numbers the modelled calls can set. *)
Inductive errno_t : Set :=
| EPERM | ENOENT | ENOEXEC | EBADF | ENOMEM | EACCES | ENODEV | ENOTDIR
| EINVAL | EMFILE | ENOTSOCK | ENOPROTOOPT | ESOCKTNOSUPPORT
| EAFNOSUPPORT | ENOBUFS | ETIMEDOUT | ESTALE.

(** [struct packet_mreq]. *)
Record packet_mreq : Set := {
  mr_ifindex : Z;            (* int *)
  mr_type : Z;               (* unsigned short *)
  mr_alen : Z;               (* unsigned short *)
  mr_address : list byte     (* unsigned char [8] *)
}.

(** ** Fixed-width integers *)

(** Conversion of an [unsigned int] to [int] (two's complement, 32 bits). *)
Definition to_int (u : Z) : Z :=
  let m := u mod 2 ^ 32 in if m <? 2 ^ 31 then m else m - 2 ^ 32.

Definition bswap_16 (x : Z) : Z :=
  Z.lor (Z.shiftl (Z.land x 255) 8) (Z.land (Z.shiftr x 8) 255).

(** The two bytes of a 16-bit value, most significant first. *)
Definition be16_bytes (x : Z) : list Z := [Z.land (Z.shiftr x 8) 255; Z.land x 255].

(** ** The process state *)

(** What a descriptor refers to: something the process was started with, or
    a socket object of [sockets]. *)
Inductive file : Set :=
| Inherited
| Sock (sid : nat).

(** A packet socket: family, type, protocol filter (a 16-bit value in the
    host's representation of network byte order) and link-layer memberships. *)
Record socket : Set := {
  so_domain : Z;
  so_type : Z;
  so_protocol : Z;
  so_mclist : list packet_mreq
}.

Record kstate : Type := {
  fd_table : gmap nat file;
  sockets : list socket;
  errno : option errno_t
}.

Definition set_errno (e : errno_t) (k : kstate) : kstate :=
  {| fd_table := fd_table k; sockets := sockets k; errno := Some e |}.

Definition set_fd_table (m : gmap nat file) (k : kstate) : kstate :=
  {| fd_table := m; sockets := sockets k; errno := errno k |}.

(** The library calls of the program, with their arguments. *)
Inductive call : Type :=
| Fprintf_stderr (fmt : string) (arg : option string)
| Perror (s : string)
| Socket (domain type protocol : Z)
| If_nametoindex (ifname : string)
| Setsockopt (fd level optname : Z) (optval : packet_mreq) (optlen : Z)
| Dup2 (oldfd newfd : Z)
| Close (fd : Z)
| Execvp (file : string) (argv : list string).

(** One logged call: the state it was entered in and what it returned
    ([None] for a call whose result is not a value the program sees: the
    stdio calls, and an [execvp] that succeeded). *)
Record event : Type := Ev {
  ev_call : call;
  ev_pre : kstate;
  ev_ret : option Z
}.

(** The program a successful [execvp] starts. *)
Record image : Set := {
  img_path : string;
  img_argv : list string
}.

(** ** The monad *)

Inductive res (A : Type) : Type :=
| Returned (a : A) (k : kstate) (t : list event)
| Replaced (img : image) (k : kstate) (t : list event).
Arguments Returned {A} a k t.
Arguments Replaced {A} img k t.

Definition proc (A : Type) : Type := kstate -> list event -> res A.

Definition ret {A} (a : A) : proc A := fun k t => Returned a k t.

Definition bind {A B} (m : proc A) (f : A -> proc B) : proc B :=
  fun k t =>
    match m k t with
    | Returned a k' t' => f a k' t'
    | Replaced img k' t' => Replaced img k' t'
    end.

#[global] Instance proc_ret : MRet proc := @ret.
#[global] Instance proc_bind : MBind proc := fun A B f m => bind m f.

Definition res_state {A} (r : res A) : kstate :=
  match r with Returned _ k _ | Replaced _ k _ => k end.

Definition res_trace {A} (r : res A) : list event :=
  match r with Returned _ _ t | Replaced _ _ t => t end.

(** A call that returns a value: run its semantics and log it. *)
Definition sys (c : call) (sem : kstate -> Z * kstate) : proc Z :=
  fun k t =>
    let '(r, k') := sem k in
    Returned r k' (t ++ [Ev c k (Some r)]).

(** A stdio call on the error stream: logged, state unchanged. *)
Definition say (c : call) : proc unit :=
  fun k t => Returned tt k (t ++ [Ev c k None]).

Definition fail (e : errno_t) (k : kstate) : Z * kstate := (-1, set_errno e k).

(** ** The host: what the program cannot decide *)

Record host : Type := {
  big_endian : bool;
  cap_net_raw : bool;                               (* may open packet sockets *)
  nofile : nat;                                     (* RLIMIT_NOFILE *)
  interfaces : gmap string Z;                       (* name to interface index *)
  membership_refusal : packet_mreq -> option errno_t;
  path_env : option string;                         (* getenv ("PATH") *)
  execve_refusal : string -> option errno_t         (* execve(2) of a file *)
}.

Section Calls.
Variable h : host.

Definition htons (x : Z) : Z :=
  if big_endian h then Z.land x 65535 else bswap_16 x.

(** The bytes of a 16-bit value as they lie in this host's memory. *)
Definition u16_in_memory (x : Z) : list Z :=
  if big_endian h then be16_bytes x else rev (be16_bytes x).

Definition lowest_free (m : gmap nat file) : option nat :=
  find (fun fd => bool_decide (m !! fd = None)) (seq 0 (nofile h)).

Definition lookup_fd (fd : Z) (k : kstate) : option file :=
  if fd <? 0 then None else fd_table k !! Z.to_nat fd.

(** socket(2), for packet sockets. *)
Definition sys_socket (domain type protocol : Z) (k : kstate) : Z * kstate :=
  if negb (domain =? Linux.AF_PACKET) then fail EAFNOSUPPORT k
  else if negb (cap_net_raw h) then fail EPERM k
  else if negb ((type =? Linux.SOCK_RAW) || (type =? Linux.SOCK_DGRAM)
                || (type =? Linux.SOCK_PACKET)) then fail ESOCKTNOSUPPORT k
  else match lowest_free (fd_table k) with
       | None => fail EMFILE k
       | Some fd =>
           let s := {| so_domain := domain; so_type := type;
                       so_protocol := Z.land protocol 65535;
                       so_mclist := [] |} in
           (Z.of_nat fd,
            {| fd_table := <[fd := Sock (length (sockets k))]> (fd_table k);
               sockets := sockets k ++ [s];
               errno := errno k |})
       end.

(** if_nametoindex(3), as the C library does it: a name of [IFNAMSIZ]
    characters or more is refused with ENODEV; then the library opens a
    socket of its own for the SIOCGIFINDEX request, and returns 0 with
    ENOENT when it gets none, which is when no descriptor is free; the
    request fails with ENODEV for an unknown name.  The library closes its
    socket before it returns: the descriptor table is left as it was. *)
Definition sys_if_nametoindex (ifname : string) (k : kstate) : Z * kstate :=
  if (Linux.IFNAMSIZ <=? String.length ifname)%nat then (0, set_errno ENODEV k)
  else match lowest_free (fd_table k) with
       | None => (0, set_errno ENOENT k)
       | Some _ =>
           match interfaces h !! ifname with
           | Some i => (i, k)
           | None => (0, set_errno ENODEV k)
           end
       end.

Definition add_membership (m : packet_mreq) (s : socket) : socket :=
  {| so_domain := so_domain s; so_type := so_type s;
     so_protocol := so_protocol s; so_mclist := so_mclist s ++ [m] |}.

(** setsockopt(2) at level SOL_PACKET. *)
Definition sys_setsockopt (fd level optname : Z) (optval : packet_mreq)
    (optlen : Z) (k : kstate) : Z * kstate :=
  match lookup_fd fd k with
  | None => fail EBADF k
  | Some Inherited => fail ENOTSOCK k
  | Some (Sock sid) =>
      if negb ((level =? Linux.SOL_PACKET)
               && (optname =? Linux.PACKET_ADD_MEMBERSHIP))
      then fail ENOPROTOOPT k
      else if optlen <? Linux.sizeof_packet_mreq then fail EINVAL k
      else match membership_refusal h optval with
           | Some e => fail e k
           | None =>
               (0, {| fd_table := fd_table k;
                      sockets := alter (add_membership optval) sid (sockets k);
                      errno := errno k |})
           end
  end.

(** dup2(2). *)
Definition sys_dup2 (oldfd newfd : Z) (k : kstate) : Z * kstate :=
  match lookup_fd oldfd k with
  | None => fail EBADF k
  | Some f =>
      if (newfd <? 0) || (Z.of_nat (nofile h) <=? newfd) then fail EBADF k
      else if oldfd =? newfd then (newfd, k)
      else (newfd, set_fd_table (<[Z.to_nat newfd := f]> (fd_table k)) k)
  end.

(** close(2). *)
Definition sys_close (fd : Z) (k : kstate) : Z * kstate :=
  match lookup_fd fd k with
  | None => fail EBADF k
  | Some _ => (0, set_fd_table (delete (Z.to_nat fd) (fd_table k)) k)
  end.

(** [strchr (s, '/') != NULL]. *)
Fixpoint has_slash (s : string) : bool :=
  match s with
  | EmptyString => false
  | String c s' => if Ascii.eqb c "/" then true else has_slash s'
  end.

(** The entries of a PATH value, cut at the colons: the first one and the
    others.  There is always a first one, possibly empty. *)
Fixpoint path_entries (p : string) : string * list string :=
  match p with
  | EmptyString => (EmptyString, [])
  | String c p' =>
      let '(d, ds) := path_entries p' in
      if Ascii.eqb c ":" then (EmptyString, d :: ds) else (String c d, ds)
  end.

(** The file tried for entry [d] of PATH: the entry, a slash unless the
    entry is empty, and the name. *)
Definition entry_file (d file : string) : string :=
  if bool_decide (d = EmptyString) then file else (d +:+ "/" +:+ file)%string.

(** One attempt of execvp(3) on a file: [execve] of the file with the
    arguments given; when that fails with ENOEXEC, [execve] of the shell
    with the file as first argument and the arguments after the first. *)
Definition attempt (path : string) (argv : list string) : image + errno_t :=
  match execve_refusal h path with
  | None => inl {| img_path := path; img_argv := argv |}
  | Some ENOEXEC =>
      match execve_refusal h Linux._PATH_BSHELL with
      | None =>
          inl {| img_path := Linux._PATH_BSHELL;
                 img_argv := Linux._PATH_BSHELL :: path :: drop 1 argv |}
      | Some e => inr e
      end
  | Some e => inr e
  end.

(** The error numbers after which the search goes on to the next entry. *)
Definition skipped (e : errno_t) : bool :=
  match e with
  | EACCES | ENOENT | ESTALE | ENOTDIR | ENODEV | ETIMEDOUT => true
  | _ => false
  end.

Definition is_eacces (e : errno_t) : bool :=
  match e with EACCES => true | _ => false end.

(** The search of execvp(3) from entry [d] on: an attempt per entry, in
    order, until one succeeds or fails with an error number that is not
    skipped.  When the entries are used up the error number is the last
    one, or EACCES if some attempt was denied. *)
Fixpoint search (file : string) (argv : list string) (d : string)
    (ds : list string) (denied : bool) {struct ds} : image + errno_t :=
  match attempt (entry_file d file) argv with
  | inl img => inl img
  | inr e =>
      if skipped e then
        let denied' := denied || is_eacces e in
        match ds with
        | [] => inr (if denied' then EACCES else e)
        | d' :: ds' => search file argv d' ds' denied'
        end
      else inr e
  end.

(** execvp(3) up to the point where it returns or the image is replaced:
    an empty name is ENOENT, a name with a slash is attempted as it is,
    any other name is searched in PATH ([CS_PATH] when PATH is not set).
    (Names and PATH values are taken to be within NAME_MAX and PATH_MAX.) *)
Definition resolve (file : string) (argv : list string) : image + errno_t :=
  if bool_decide (file = EmptyString) then inr ENOENT
  else if has_slash file then attempt file argv
  else let '(d, ds) := path_entries (default Linux.CS_PATH (path_env h)) in
       search file argv d ds false.

(** ** The calls as the program makes them *)

Definition socket_ (domain type protocol : Z) : proc Z :=
  sys (Socket domain type protocol) (sys_socket domain type protocol).

Definition if_nametoindex (ifname : string) : proc Z :=
  sys (If_nametoindex ifname) (sys_if_nametoindex ifname).

Definition setsockopt (fd level optname : Z) (optval : packet_mreq)
    (optlen : Z) : proc Z :=
  sys (Setsockopt fd level optname optval optlen)
      (sys_setsockopt fd level optname optval optlen).

Definition dup2 (oldfd newfd : Z) : proc Z :=
  sys (Dup2 oldfd newfd) (sys_dup2 oldfd newfd).

Definition close (fd : Z) : proc Z := sys (Close fd) (sys_close fd).

Definition execvp (file : string) (argv : list string) : proc Z :=
  fun k t =>
    let c := Execvp file argv in
    match resolve file argv with
    | inl img => Replaced img k (t ++ [Ev c k None])
    | inr e => Returned (-1) (set_errno e k) (t ++ [Ev c k (Some (-1))])
    end.

Definition fprintf_stderr (fmt : string) (arg : option string) : proc unit :=
  say (Fprintf_stderr fmt arg).

Definition perror (s : string) : proc unit := say (Perror s).

(** ** The program *)

Definition usage_fmt : string := "Usage: %s <interface> prog args ...
".

Definition group_address : list byte :=
  [x71; xb3; xd5; x3a; x6f; x00; x00; x00].

(** [argv[i]] for [i < argc]. *)
Definition arg (argv : list string) (i : nat) : string :=
  default ""%string (argv !! i).

Definition main (argv : list string) : proc Z :=
  if Z.of_nat (length argv) <? 3 then
     fprintf_stderr usage_fmt (argv !! 0%nat);;
     mret 1
   else
     sock ← socket_ Linux.AF_PACKET Linux.SOCK_RAW (htons 0x88b5);
     if sock <? 0 then
       perror "cannot open socket";;
       mret 1
     else
       ifidx ← if_nametoindex (arg argv 1);
       if ifidx =? 0 then
         perror "cannot find interface";;
         mret 1
       else
         let multi := {| mr_ifindex := to_int ifidx;
                         mr_type := Linux.PACKET_MR_MULTICAST;
                         mr_alen := 6;
                         mr_address := group_address |} in
         ss ← setsockopt sock Linux.SOL_PACKET Linux.PACKET_ADD_MEMBERSHIP
                 multi Linux.sizeof_packet_mreq;
         if ss <? 0 then
           perror "cannot setsockopt";;
           mret 1
         else
           dup2 sock 42;;
           close sock;;
           execvp (arg argv 2) (drop 2 argv);;
           perror "exec failed";;
           mret 1.

(** A run of the program from a fresh log. *)
Definition run (argv : list string) (k : kstate) : res Z := main argv k [].

End Calls.

(** ** Vocabulary of the properties *)

Definition is_socket (c : call) : bool :=
  match c with Socket _ _ _ => true | _ => false end.
Definition is_if_nametoindex (c : call) : bool :=
  match c with If_nametoindex _ => true | _ => false end.
Definition is_setsockopt (c : call) : bool :=
  match c with Setsockopt _ _ _ _ _ => true | _ => false end.
Definition is_dup2 (c : call) : bool :=
  match c with Dup2 _ _ => true | _ => false end.
Definition is_close (c : call) : bool :=
  match c with Close _ => true | _ => false end.
Definition is_execvp (c : call) : bool :=
  match c with Execvp _ _ => true | _ => false end.

(** A message on the error stream. *)
Definition is_diagnostic (c : call) : bool :=
  match c with Fprintf_stderr _ _ | Perror _ => true | _ => false end.

(** The log contains a call of the given kind. *)
Definition attempts (p : call -> bool) (t : list event) : bool :=
  existsb (fun e => p (ev_call e)) t.

(** Every call of kind [q] in the log comes after some call of kind [p]. *)
Definition preceded_by (p q : call -> bool) (t : list event) : Prop :=
  forall (i : nat) (e : event),
    t !! i = Some e -> q (ev_call e) = true ->
    exists (j : nat) (e' : event),
      (j < i)%nat /\ t !! j = Some e' /\ p (ev_call e') = true.

(** The call failed, as the program tests it: a negative result. *)
Definition refused (e : event) : Prop :=
  exists r : Z, ev_ret e = Some r /\ r < 0.

(** No descriptor of the initial table points at a socket object that does
    not exist yet. *)
Definition fds_ok (k : kstate) : Prop :=
  map_Forall (fun _ f => match f with
                         | Inherited => True
                         | Sock sid => (sid < length (sockets k))%nat
                         end) (fd_table k).

#[global] Instance fds_ok_dec (k : kstate) : Decision (fds_ok k).
Proof.
  unfold fds_ok. apply map_Forall_dec. intros _ [|sid]; apply _.
Defined.

(** Interface indices are positive [int]s. *)
Definition interfaces_ok (h : host) : Prop :=
  map_Forall (fun _ i => 0 < i < 2 ^ 31) (interfaces h).

(** The descriptors of [k] that refer to socket [sid] are exactly those
    of [fds]. *)
Definition open_at (sid : nat) (fds : list nat) (k : kstate) : Prop :=
  forall fd : nat, fd_table k !! fd = Some (Sock sid) <-> fd ∈ fds.

(** The socket the program asks for, before any option is set. *)
Definition fresh_socket (h : host) : socket :=
  {| so_domain := Linux.AF_PACKET; so_type := Linux.SOCK_RAW;
     so_protocol := Z.land (htons h 0x88b5) 65535; so_mclist := [] |}.

(** The membership request for interface index [ifidx]. *)
Definition group_request (ifidx : Z) : packet_mreq :=
  {| mr_ifindex := to_int ifidx; mr_type := Linux.PACKET_MR_MULTICAST;
     mr_alen := 6; mr_address := group_address |}.

(** The hardware address 71:b3:d5:3a:6f:00. *)
Definition zappi_group : list byte := [x71; xb3; xd5; x3a; x6f; x00].











(** The hand-over the relocation is written for: whenever the run calls
    [execvp], the descriptors that refer to the socket it created are
    descriptor 42 and no other, and that socket is a member of the group on
    the interface named by [argv[1]]. *)
Definition handoff_invariant (h : host) (argv : list string) (k : kstate)
    (t : list event) : Prop :=
  forall e : event,
    e ∈ t -> is_execvp (ev_call e) = true ->
    open_at (length (sockets k)) [42%nat] (ev_pre e) /\
    exists idx : Z,
      interfaces h !! arg argv 1 = Some idx /\
      sockets (ev_pre e) !! length (sockets k)
        = Some (add_membership (group_request idx) (fresh_socket h)).

(** The C function a logged call is a call of. *)
Definition call_name (c : call) : string :=
  match c with
  | Fprintf_stderr _ _ => "fprintf"
  | Perror _ => "perror"
  | Socket _ _ _ => "socket"
  | If_nametoindex _ => "if_nametoindex"
  | Setsockopt _ _ _ _ _ => "setsockopt"
  | Dup2 _ _ => "dup2"
  | Close _ => "close"
  | Execvp _ _ => "execvp"
  end.

(** The functions called in a run, in order. *)
Definition calls (t : list event) : list string :=
  (fun e => call_name (ev_call e)) <$> t.

(** ** The runs of the program, one constructor per exit *)

Section Runs.
Variables (h : host) (argv : list string) (k : kstate).

Definition c_socket : call :=
  Socket Linux.AF_PACKET Linux.SOCK_RAW (htons h 0x88b5).
Definition c_if : call := If_nametoindex (arg argv 1).
Definition c_join (sock ifidx : Z) : call :=
  Setsockopt sock Linux.SOL_PACKET Linux.PACKET_ADD_MEMBERSHIP
    (group_request ifidx) Linux.sizeof_packet_mreq.
Definition c_exec : call := Execvp (arg argv 2) (drop 2 argv).

(** The state after each call, as long as the previous one succeeded. *)
Record setup : Type := {
  sock : Z; k1 : kstate;        (* socket *)
  ifidx : Z; k2 : kstate;       (* if_nametoindex *)
  ss : Z; k3 : kstate;          (* setsockopt *)
  dup_ret : Z; k4 : kstate;     (* dup2 *)
  close_ret : Z; k5 : kstate    (* close *)
}.

Definition opened (s : setup) : Prop :=
  (3 <= length argv)%nat /\
  sys_socket h Linux.AF_PACKET Linux.SOCK_RAW (htons h 0x88b5) k
    = (sock s, k1 s).
Definition resolved (s : setup) : Prop :=
  opened s /\ 0 <= sock s /\
  sys_if_nametoindex h (arg argv 1) (k1 s) = (ifidx s, k2 s).
Definition requested (s : setup) : Prop :=
  resolved s /\ ifidx s <> 0 /\
  sys_setsockopt h (sock s) Linux.SOL_PACKET Linux.PACKET_ADD_MEMBERSHIP
    (group_request (ifidx s)) Linux.sizeof_packet_mreq (k2 s) = (ss s, k3 s).
Definition relocated (s : setup) : Prop :=
  requested s /\ 0 <= ss s /\
  sys_dup2 h (sock s) 42 (k3 s) = (dup_ret s, k4 s) /\
  sys_close (sock s) (k4 s) = (close_ret s, k5 s).

Definition t_socket (s : setup) : list event :=
  [Ev c_socket k (Some (sock s))].
Definition t_if (s : setup) : list event :=
  t_socket s ++ [Ev c_if (k1 s) (Some (ifidx s))].
Definition t_join (s : setup) : list event :=
  t_if s ++ [Ev (c_join (sock s) (ifidx s)) (k2 s) (Some (ss s))].
Definition t_reloc (s : setup) : list event :=
  t_join s ++ [Ev (Dup2 (sock s) 42) (k3 s) (Some (dup_ret s));
               Ev (Close (sock s)) (k4 s) (Some (close_ret s))].

Inductive run_spec : res Z -> Prop :=
| R_usage :
    (length argv < 3)%nat ->
    run_spec (Returned 1 k [Ev (Fprintf_stderr usage_fmt (argv !! 0%nat)) k None])
| R_socket (s : setup) :
    opened s -> sock s < 0 ->
    run_spec (Returned 1 (k1 s)
      (t_socket s ++ [Ev (Perror "cannot open socket") (k1 s) None]))
| R_interface (s : setup) :
    resolved s -> ifidx s = 0 ->
    run_spec (Returned 1 (k2 s)
      (t_if s ++ [Ev (Perror "cannot find interface") (k2 s) None]))
| R_join (s : setup) :
    requested s -> ss s < 0 ->
    run_spec (Returned 1 (k3 s)
      (t_join s ++ [Ev (Perror "cannot setsockopt") (k3 s) None]))
| R_exec_failed (s : setup) (e : errno_t) :
    relocated s -> resolve h (arg argv 2) (drop 2 argv) = inr e ->
    run_spec (Returned 1 (set_errno e (k5 s))
      (t_reloc s ++ [Ev c_exec (k5 s) (Some (-1));
                     Ev (Perror "exec failed") (set_errno e (k5 s)) None]))
| R_exec (s : setup) (img : image) :
    relocated s -> resolve h (arg argv 2) (drop 2 argv) = inl img ->
    run_spec (Replaced img (k5 s) (t_reloc s ++ [Ev c_exec (k5 s) None])).

End Runs.

(** ** Concrete hosts, states and command lines *)

Module Demo.
Local Open Scope string_scope.

Definition echo_only (path : string) : option errno_t :=
  if bool_decide (path = "/bin/echo") then None else Some ENOENT.

(** A little-endian host with one interface, privileged, default limits. *)
Definition lan : host :=
  {| big_endian := false; cap_net_raw := true; nofile := 1024;
     interfaces := {[ "eth0" := 2 ]};
     membership_refusal := fun _ => None;
     path_env := Some "/usr/bin:/bin";
     execve_refusal := echo_only |}.

(** The same without the capability to open packet sockets. *)
Definition unprivileged : host :=
  {| big_endian := false; cap_net_raw := false; nofile := 1024;
     interfaces := {[ "eth0" := 2 ]};
     membership_refusal := fun _ => None;
     path_env := Some "/usr/bin:/bin";
     execve_refusal := echo_only |}.

(** The same as [lan] under [ulimit -n 32]. *)
Definition limited : host :=
  {| big_endian := false; cap_net_raw := true; nofile := 32;
     interfaces := {[ "eth0" := 2 ]};
     membership_refusal := fun _ => None;
     path_env := Some "/usr/bin:/bin";
     execve_refusal := echo_only |}.

(** The same as [lan] with a device that takes no multicast addresses. *)
Definition no_multicast : host :=
  {| big_endian := false; cap_net_raw := true; nofile := 1024;
     interfaces := {[ "eth0" := 2 ]};
     membership_refusal := fun _ => Some EINVAL;
     path_env := Some "/usr/bin:/bin";
     execve_refusal := echo_only |}.

Definition table (n : nat) : gmap nat file :=
  list_to_map ((fun fd => (fd, Inherited)) <$> seq 0 n).

(** Standard input, output and error open, nothing else. *)
Definition stdio : kstate :=
  {| fd_table := table 3; sockets := []; errno := None |}.

(** Started by a parent that left descriptors 0 to 41 open. *)
Definition crowded : kstate :=
  {| fd_table := table 42; sockets := []; errno := None |}.

(** [stdio] once [socket] has returned descriptor 3. *)
Definition stdio_and_socket (h : host) : kstate :=
  {| fd_table := <[3%nat := Sock 0]> (table 3);
     sockets := [fresh_socket h]; errno := None |}.

(** [stdio] with the socket, a member of the group on interface 2, moved
    to descriptor 42. *)
Definition stdio_and_socket_at_42 : kstate :=
  {| fd_table := <[42%nat := Sock 0]> (table 3);
     sockets := [add_membership (group_request 2) (fresh_socket lan)];
     errno := None |}.




Definition cmd : list string := ["opensock"; "eth0"; "echo"; "hello"].
Definition cmd_no_such_if : list string := ["opensock"; "doesnotexist0"; "echo"; "hello"].
Definition cmd_no_such_prog : list string := ["opensock"; "eth0"; "nothing"].
Definition cmd_short : list string := ["opensock"; "eth0"].
End Demo.

(** ** The function and its runs *)

Lemma run_run_spec (h : host) (argv : list string) (k : kstate) :
  run_spec h argv k (run h argv k).
Proof.
  unfold run, main.
  destruct (Z.ltb_spec (Z.of_nat (length argv)) 3) as [Hargc|Hargc].
  { apply R_usage. lia. }
  assert (Hlen : (3 <= length argv)%nat) by lia.
  unfold mbind, proc_bind, bind, mret, proc_ret, ret,
    socket_, if_nametoindex, setsockopt, dup2, close, perror, sys, say.
  destruct (sys_socket _ _ _ _ k) as [sock0 ka] eqn:E1; simpl.
  destruct (Z.ltb_spec sock0 0) as [Hs|Hs].
  { apply (R_socket h argv k (Build_setup sock0 ka 0 ka 0 ka 0 ka 0 ka)); [split|]; done. }
  destruct (sys_if_nametoindex _ _ ka) as [i kb] eqn:E2; simpl.
  destruct (Z.eqb_spec i 0) as [Hi|Hi].
  { apply (R_interface h argv k (Build_setup sock0 ka i kb 0 kb 0 kb 0 kb));
      [repeat split|]; done. }
  destruct (sys_setsockopt _ _ _ _ _ _ kb) as [r kc] eqn:E3; simpl.
  destruct (Z.ltb_spec r 0) as [Hr|Hr].
  { apply (R_join h argv k (Build_setup sock0 ka i kb r kc 0 kc 0 kc));
      [repeat split|]; done. }
  destruct (sys_dup2 _ _ _ kc) as [d kd] eqn:E4; simpl.
  destruct (sys_close _ kd) as [c ke] eqn:E5; simpl.
  unfold execvp.
  destruct (resolve h (arg argv 2)) as [path|e] eqn:E6.
  - apply (R_exec h argv k (Build_setup sock0 ka i kb r kc d kd c ke) path);
      [repeat split|]; done.
  - apply (R_exec_failed h argv k (Build_setup sock0 ka i kb r kc d kd c ke) e);
      [repeat split|]; done.
Qed.

(** ** Facts about the calls *)

Lemma bswap_16_ethertype : bswap_16 0x88b5 = 0xb588.
Proof. reflexivity. Qed.

Lemma htons_ethertype_in_memory (h : host) :
  u16_in_memory h (htons h 0x88b5) = [0x88; 0xb5].
Proof. unfold u16_in_memory, htons. destruct (big_endian h); reflexivity. Qed.

Lemma htons_ethertype_16 (h : host) :
  Z.land (htons h 0x88b5) 65535 = htons h 0x88b5.
Proof. unfold htons. destruct (big_endian h); reflexivity. Qed.

Lemma to_int_small (i : Z) : 0 < i < 2 ^ 31 -> to_int i = i.
Proof.
  intros Hi. unfold to_int. rewrite Z.mod_small by lia.
  destruct (Z.ltb_spec i (2 ^ 31)); lia.
Qed.

Lemma lookup_fd_of_nat (fd : nat) (k : kstate) :
  lookup_fd (Z.of_nat fd) k = fd_table k !! fd.
Proof.
  unfold lookup_fd. destruct (Z.ltb_spec (Z.of_nat fd) 0); [lia|].
  by rewrite Nat2Z.id.
Qed.

Section Facts.
Variable h : host.

Lemma lowest_free_Some (m : gmap nat file) (fd : nat) :
  lowest_free h m = Some fd -> m !! fd = None /\ (fd < nofile h)%nat.
Proof.
  unfold lowest_free. intros Hf. apply find_some in Hf as [Hin Hfree].
  apply bool_decide_eq_true in Hfree. apply in_seq in Hin. split; [done|lia].
Qed.

(** Below the lowest free descriptor every slot is taken. *)
Lemma lowest_free_below (m : gmap nat file) (fd j : nat) :
  lowest_free h m = Some fd -> (j < fd)%nat -> is_Some (m !! j).
Proof.
  unfold lowest_free. intros Hf Hj.
  assert (Hge : (0 <= j)%nat) by lia. revert Hf Hge.
  generalize 0%nat as a. generalize (nofile h) as n.
  induction n as [|n IH]; intros a Hf Hge; simpl in Hf; [done|].
  case_bool_decide as Hfree.
  - injection Hf as ->. lia.
  - destruct (decide (j = a)) as [->|Hne].
    + by apply not_eq_None_Some.
    + apply (IH (S a)); [done|lia].
Qed.

(** A refused socket leaves the descriptor table and the sockets alone. *)
Lemma sys_socket_refused (d t p : Z) (k k' : kstate) (r : Z) :
  sys_socket h d t p k = (r, k') -> r < 0 ->
  r = -1 /\ exists e, k' = set_errno e k.
Proof.
  unfold sys_socket, fail. intros Hs Hr.
  repeat (case_match; simplify_eq; eauto); lia.
Qed.

Lemma sys_socket_granted (k k' : kstate) (r : Z) :
  sys_socket h Linux.AF_PACKET Linux.SOCK_RAW (htons h 0x88b5) k = (r, k') ->
  0 <= r ->
  exists fd : nat,
    r = Z.of_nat fd /\ lowest_free h (fd_table k) = Some fd /\
    k' = {| fd_table := <[fd := Sock (length (sockets k))]> (fd_table k);
            sockets := sockets k ++ [fresh_socket h];
            errno := errno k |}.
Proof.
  unfold sys_socket, fail. intros Hs Hr.
  repeat (case_match; simplify_eq; try lia).
  eexists. repeat split; done.
Qed.

Lemma sys_if_nametoindex_state (name : string) (k k' : kstate) (i : Z) :
  sys_if_nametoindex h name k = (i, k') ->
  fd_table k' = fd_table k /\ sockets k' = sockets k.
Proof.
  unfold sys_if_nametoindex. intros Hs.
  repeat case_match; by simplify_eq.
Qed.

Lemma sys_if_nametoindex_found (name : string) (k k' : kstate) (i : Z) :
  sys_if_nametoindex h name k = (i, k') -> i <> 0 ->
  interfaces h !! name = Some i /\ k' = k /\
  is_Some (lowest_free h (fd_table k)) /\
  (String.length name < Linux.IFNAMSIZ)%nat.
Proof.
  unfold sys_if_nametoindex. intros Hs Hi.
  destruct (Nat.leb_spec Linux.IFNAMSIZ (String.length name));
    repeat case_match; simplify_eq; eauto.
Qed.

(** For a name the host does not know the result is 0, with ENODEV, or
    with ENOENT when the library could not open its socket. *)
Lemma sys_if_nametoindex_unknown (name : string) (k : kstate) :
  interfaces h !! name = None ->
  exists e : errno_t,
    sys_if_nametoindex h name k = (0, set_errno e k) /\
    (e = ENODEV \/ (e = ENOENT /\ lowest_free h (fd_table k) = None)).
Proof.
  unfold sys_if_nametoindex. intros ->.
  repeat case_match; eauto.
Qed.


Lemma sys_setsockopt_state (fd l o len : Z) (m : packet_mreq)
    (k k' : kstate) (r : Z) :
  sys_setsockopt h fd l o m len k = (r, k') ->
  fd_table k' = fd_table k /\
  (r < 0 -> r = -1 /\ exists e, k' = set_errno e k) /\
  (0 <= r -> r = 0 /\ membership_refusal h m = None /\ errno k' = errno k /\
     exists sid, lookup_fd fd k = Some (Sock sid) /\
       sockets k' = alter (add_membership m) sid (sockets k)).
Proof.
  unfold sys_setsockopt, fail. intros Hs.
  repeat (case_match; simplify_eq; simpl);
    repeat split; intros; try lia; eauto.
Qed.

End Facts.

(** ** Argument validation *)

(** C5: with fewer than two arguments after the program name, the run is
    one [fprintf] to the error stream, of the usage line with [argv[0]] for
    its [%s], then exit status 1; the process state is the initial one, and
    no socket was asked for. *)
Theorem usage_error (h : host) (argv : list string) (k : kstate) :
  (length argv < 3)%nat ->
  run h argv k
    = Returned 1 k
        [Ev (Fprintf_stderr "Usage: %s <interface> prog args ...
" (argv !! 0%nat)) k None] /\
  attempts is_socket (res_trace (run h argv k)) = false /\
  attempts is_diagnostic (res_trace (run h argv k)) = true.
Proof.
  intros Hlen.
  destruct (run_run_spec h argv k) as [?|s [? ?] ?|s [[? ?] ?] ?
    |s [[[? ?] ?] ?] ?|s e [[[[? ?] ?] ?] ?] ?|s p [[[[? ?] ?] ?] ?] ?];
    try lia.
  done.
Qed.

Lemma usage_error_witness :
  run Demo.lan Demo.cmd_short Demo.stdio
    = Returned 1 Demo.stdio
        [Ev (Fprintf_stderr "Usage: %s <interface> prog args ...
" (Some "opensock"%string)) Demo.stdio None] /\
  attempts is_socket (res_trace (run Demo.lan Demo.cmd_short Demo.stdio)) = false /\
  attempts is_diagnostic (res_trace (run Demo.lan Demo.cmd_short Demo.stdio)) = true.
Proof. apply (usage_error Demo.lan Demo.cmd_short Demo.stdio). simpl. lia. Defined.

(** Case analysis on a run: one goal per exit of [main]. *)
Ltac run_cases h argv k :=
  destruct (run_run_spec h argv k)
    as [Hargc
       |s [Hargc Hsock] Hneg
       |s [[Hargc Hsock] [Hpos Hif]] Hzero
       |s [[[Hargc Hsock] [Hpos Hif]] [Hnz Hjoin]] Hrej
       |s err [[[[Hargc Hsock] [Hpos Hif]] [Hnz Hjoin]] [Hok [Hdup Hclose]]] Hexec
       |s img [[[[Hargc Hsock] [Hpos Hif]] [Hnz Hjoin]] [Hok [Hdup Hclose]]] Hexec];
  unfold t_reloc, t_join, t_if, t_socket; simpl.

(** ** Socket acquisition *)

(** C3: once the arguments are accepted, the first call of the run, and its
    only [socket] call, asks for an [AF_PACKET] socket of type [SOCK_RAW]
    whose protocol argument is [htons 0x88b5]: in the host's memory the
    bytes 0x88, 0xb5, that is the EtherType in network byte order, whatever
    the host's endianness.  When the call is granted, the socket object
    created has that family, type and protocol filter. *)
Theorem socket_request (h : host) (argv : list string) (k : kstate) :
  (3 <= length argv)%nat ->
  exists (r : Z) (t : list event),
    res_trace (run h argv k)
      = Ev (Socket Linux.AF_PACKET Linux.SOCK_RAW (htons h 0x88b5)) k (Some r) :: t /\
    attempts is_socket t = false /\
    u16_in_memory h (htons h 0x88b5) = [0x88; 0xb5] /\
    (0 <= r ->
     exists (k' : kstate) (so : socket),
       sys_socket h Linux.AF_PACKET Linux.SOCK_RAW (htons h 0x88b5) k = (r, k') /\
       lookup_fd r k' = Some (Sock (length (sockets k))) /\
       sockets k' !! length (sockets k) = Some so /\
       so_domain so = Linux.AF_PACKET /\ so_type so = Linux.SOCK_RAW /\
       u16_in_memory h (so_protocol so) = [0x88; 0xb5]).
Proof.
  intros Hlen.
  assert (Hgrant : forall s : setup, opened h argv k s -> 0 <= sock s ->
    exists (k' : kstate) (so : socket),
      sys_socket h Linux.AF_PACKET Linux.SOCK_RAW (htons h 0x88b5) k = (sock s, k') /\
      lookup_fd (sock s) k' = Some (Sock (length (sockets k))) /\
      sockets k' !! length (sockets k) = Some so /\
      so_domain so = Linux.AF_PACKET /\ so_type so = Linux.SOCK_RAW /\
      u16_in_memory h (so_protocol so) = [0x88; 0xb5]).
  { intros s [_ Hs] Hr.
    destruct (sys_socket_granted h k (k1 s) (sock s) Hs Hr) as (fd & Hfd & _ & Hk).
    exists (k1 s), (fresh_socket h). split; [done|].
    rewrite Hfd, lookup_fd_of_nat, Hk; simpl.
    rewrite lookup_insert_eq, lookup_app_r, Nat.sub_diag by lia.
    rewrite htons_ethertype_16.
    repeat split; auto using htons_ethertype_in_memory. }
  run_cases h argv k; try lia;
    (eexists _, _; split; [reflexivity|]; split; [reflexivity|]; split;
      [apply htons_ethertype_in_memory|]; apply Hgrant; by repeat split).
Qed.

Lemma socket_request_witness :
  exists (r : Z) (t : list event),
    res_trace (run Demo.lan Demo.cmd Demo.stdio)
      = Ev (Socket Linux.AF_PACKET Linux.SOCK_RAW (htons Demo.lan 0x88b5))
           Demo.stdio (Some r) :: t /\
    attempts is_socket t = false /\
    u16_in_memory Demo.lan (htons Demo.lan 0x88b5) = [0x88; 0xb5] /\
    (0 <= r ->
     exists (k' : kstate) (so : socket),
       sys_socket Demo.lan Linux.AF_PACKET Linux.SOCK_RAW (htons Demo.lan 0x88b5)
         Demo.stdio = (r, k') /\
       lookup_fd r k' = Some (Sock (length (sockets Demo.stdio))) /\
       sockets k' !! length (sockets Demo.stdio) = Some so /\
       so_domain so = Linux.AF_PACKET /\ so_type so = Linux.SOCK_RAW /\
       u16_in_memory Demo.lan (so_protocol so) = [0x88; 0xb5]).
Proof. apply (socket_request Demo.lan Demo.cmd Demo.stdio). simpl. lia. Defined.

Ltac by_position i :=
  repeat (destruct i as [|i]; simpl in *; simplify_eq/=; try done).

Ltac pick_event Hin :=
  repeat (apply elem_of_cons in Hin as [->|Hin]);
  try (by apply not_elem_of_nil in Hin); simpl in *; try done.

(** C7: in every run an [if_nametoindex] call comes after a [socket] call;
    and a run whose [socket] call is refused consists of that call and
    [perror "cannot open socket"] (with [errno] set by the refusal), exits
    with status 1 and never calls [if_nametoindex]. *)
Theorem socket_before_interface (h : host) (argv : list string) (k : kstate) :
  preceded_by is_socket is_if_nametoindex (res_trace (run h argv k)) /\
  (forall e : event,
     e ∈ res_trace (run h argv k) -> is_socket (ev_call e) = true -> refused e ->
     exists k' : kstate,
       run h argv k = Returned 1 k' [e; Ev (Perror "cannot open socket") k' None] /\
       is_Some (errno k') /\
       attempts is_if_nametoindex (res_trace (run h argv k)) = false).
Proof.
  run_cases h argv k; (split; [intros i ev Hi Hq|intros ev Hin Hs (r & Hr & Hlt)]).
  all: try (by_position i; exists 0%nat; eexists; (split; [lia|]); by split).
  all: pick_event Hin; simplify_eq/=; try lia.
  exists (k1 s). destruct (sys_socket_refused h _ _ _ _ _ _ Hsock Hneg) as (_ & e & ->).
  by repeat split.
Qed.

Lemma socket_before_interface_witness :
  exists k' : kstate,
    run Demo.unprivileged Demo.cmd Demo.stdio
      = Returned 1 k'
          [Ev (c_socket Demo.unprivileged) Demo.stdio (Some (-1));
           Ev (Perror "cannot open socket") k' None] /\
    is_Some (errno k') /\
    attempts is_if_nametoindex
      (res_trace (run Demo.unprivileged Demo.cmd Demo.stdio)) = false.
Proof.
  apply (proj2 (socket_before_interface Demo.unprivileged Demo.cmd Demo.stdio)).
  - apply list_elem_of_lookup. exists 0%nat. reflexivity.
  - reflexivity.
  - exists (-1). split; [reflexivity|lia].
Defined.

(** ** Interface resolution *)

(** C6: when the interface named on the command line is unknown to the
    host, the run returns status 1, its last call is a diagnostic, and it
    contains no [execvp].  If the run got as far as [if_nametoindex], that
    call returned 0 and the diagnostic is [perror "cannot find interface"],
    with [errno = ENODEV], or with [errno = ENOENT] when no descriptor was
    free for the library's own socket. *)
Theorem unknown_interface (h : host) (argv : list string) (k : kstate)
    (name : string) :
  argv !! 1%nat = Some name -> interfaces h !! name = None ->
  exists (k' : kstate) (t : list event) (e : event),
    run h argv k = Returned 1 k' (t ++ [e]) /\
    is_diagnostic (ev_call e) = true /\
    attempts is_execvp (t ++ [e]) = false /\
    (attempts is_if_nametoindex t = true ->
     (exists k0 : kstate,
        last t = Some (Ev (If_nametoindex name) k0 (Some 0)) /\
        (errno k' = Some ENODEV \/
         (errno k' = Some ENOENT /\ lowest_free h (fd_table k0) = None))) /\
     e = Ev (Perror "cannot find interface") k' None).
Proof.
  intros Hname Hunknown.
  assert (Harg : arg argv 1 = name) by (unfold arg; by rewrite Hname).
  run_cases h argv k;
    try (destruct (sys_if_nametoindex_unknown h name (k1 s) Hunknown)
           as (err0 & Hzero' & Herr);
         rewrite Harg, Hzero' in Hif; injection Hif as Hi Hk).
  - by eexists k, [], _.
  - by eexists (k1 s), [_], _.
  - eexists (k2 s), [_; _], _. split_and!; try done.
    intros _. split; [|done]. exists (k1 s). split.
    + unfold c_if. by rewrite Harg, Hzero.
    + rewrite <- Hk. simpl. destruct Herr as [->|[-> Hfull]]; auto.
  - congruence.
  - congruence.
  - congruence.
Qed.

Lemma unknown_interface_witness :
  exists (k' : kstate) (t : list event) (e : event),
    run Demo.lan Demo.cmd_no_such_if Demo.stdio = Returned 1 k' (t ++ [e]) /\
    is_diagnostic (ev_call e) = true /\
    attempts is_execvp (t ++ [e]) = false /\
    (attempts is_if_nametoindex t = true ->
     (exists k0 : kstate,
        last t = Some (Ev (If_nametoindex "doesnotexist0") k0 (Some 0)) /\
        (errno k' = Some ENODEV \/
         (errno k' = Some ENOENT /\ lowest_free Demo.lan (fd_table k0) = None))) /\
     e = Ev (Perror "cannot find interface") k' None).
Proof.
  apply (unknown_interface Demo.lan Demo.cmd_no_such_if Demo.stdio
           "doesnotexist0"); reflexivity.
Defined.

(** ** The state along a run *)

Lemma alter_last {A} (f : A -> A) (l : list A) (x : A) :
  alter f (length l) (l ++ [x]) = l ++ [f x].
Proof.
  replace (length l) with (length l + 0)%nat by lia.
  by rewrite alter_app_r.
Qed.

Section Setup.
Variables (h : host) (argv : list string) (k : kstate).

(** After [socket] and [if_nametoindex]: the lowest free descriptor refers
    to a new, unconfigured socket object. *)
Lemma resolved_inv (s : setup) :
  resolved h argv k s ->
  exists fd : nat,
    sock s = Z.of_nat fd /\ lowest_free h (fd_table k) = Some fd /\
    k1 s = {| fd_table := <[fd := Sock (length (sockets k))]> (fd_table k);
              sockets := sockets k ++ [fresh_socket h];
              errno := errno k |} /\
    fd_table (k2 s) = fd_table (k1 s) /\ sockets (k2 s) = sockets (k1 s).
Proof.
  intros [[_ Hsock] [Hpos Hif]].
  destruct (sys_socket_granted h _ _ _ Hsock Hpos) as (fd & Hfd & Hfree & Hk1).
  destruct (sys_if_nametoindex_state h _ _ _ _ Hif) as [Hfds Hsocks].
  by exists fd.
Qed.

(** After [setsockopt]: the descriptor table is as before; the socket has
    the membership exactly when the call succeeded. *)
Lemma requested_inv (s : setup) :
  requested h argv k s ->
  exists fd : nat,
    sock s = Z.of_nat fd /\ lowest_free h (fd_table k) = Some fd /\
    interfaces h !! arg argv 1 = Some (ifidx s) /\
    fd_table (k2 s) = <[fd := Sock (length (sockets k))]> (fd_table k) /\
    sockets (k2 s) = sockets k ++ [fresh_socket h] /\
    fd_table (k3 s) = fd_table (k2 s) /\
    (ss s < 0 -> sockets (k3 s) = sockets (k2 s) /\ is_Some (errno (k3 s))) /\
    (0 <= ss s ->
     membership_refusal h (group_request (ifidx s)) = None /\
     sockets (k3 s)
       = sockets k ++ [add_membership (group_request (ifidx s)) (fresh_socket h)]).
Proof.
  intros [Hres [Hnz Hjoin]].
  destruct (resolved_inv s Hres) as (fd & Hfd & Hfree & Hk1 & Hfds & Hsocks).
  destruct Hres as [_ [_ Hif]].
  destruct (sys_if_nametoindex_found h _ _ _ _ Hif Hnz) as [Hidx _].
  destruct (sys_setsockopt_state h _ _ _ _ _ _ _ _ Hjoin) as (Hfd3 & Hrej & Hacc).
  rewrite Hk1 in Hfds, Hsocks; simpl in Hfds, Hsocks.
  exists fd. repeat split; try done.
  - destruct (Hrej H) as (_ & e & ->). simpl. done.
  - destruct (Hrej H) as (_ & e & ->). simpl. eauto.
  - by destruct (Hacc H) as (_ & ? & _).
  - destruct (Hacc H) as (_ & _ & _ & sid & Hsid & ->).
    rewrite Hfd, lookup_fd_of_nat, Hfds, lookup_insert_eq in Hsid.
    injection Hsid as <-. by rewrite Hsocks, alter_last.
Qed.

(** After [dup2] and [close]: [close] succeeds and removes the original
    descriptor; [dup2] fills slot 42 when the descriptor limit allows it,
    and fails with [EBADF], changing nothing, when it does not. *)
Lemma relocated_inv (s : setup) :
  relocated h argv k s ->
  exists fd : nat,
    sock s = Z.of_nat fd /\ lowest_free h (fd_table k) = Some fd /\
    fd_table (k3 s) = <[fd := Sock (length (sockets k))]> (fd_table k) /\
    sockets (k3 s)
      = sockets k ++ [add_membership (group_request (ifidx s)) (fresh_socket h)] /\
    sockets (k5 s) = sockets (k3 s) /\
    close_ret s = 0 /\
    fd_table (k5 s) = delete fd (fd_table (k4 s)) /\
    (fd = 42%nat -> dup_ret s = 42 /\ k4 s = k3 s) /\
    ((42 < nofile h)%nat ->
     dup_ret s = 42 /\
     fd_table (k4 s) = <[42%nat := Sock (length (sockets k))]> (fd_table (k3 s))) /\
    ((nofile h <= 42)%nat ->
     dup_ret s = -1 /\ k4 s = set_errno EBADF (k3 s)).
Proof.
  intros [Hreq [Hok [Hdup Hclose]]].
  destruct (requested_inv s Hreq)
    as (fd & Hfd & Hfree & _ & Hfd2 & _ & Hfd3 & _ & Hacc).
  destruct (Hacc Hok) as [_ Hsocks]. rewrite Hfd2 in Hfd3.
  destruct (lowest_free_Some h _ _ Hfree) as [_ Hlim].
  assert (Hopen : lookup_fd (sock s) (k3 s) = Some (Sock (length (sockets k)))).
  { by rewrite Hfd, lookup_fd_of_nat, Hfd3, lookup_insert_eq. }
  unfold sys_dup2, fail in Hdup. rewrite Hopen in Hdup. simpl in Hdup.
  rewrite Hfd in Hdup, Hclose. rewrite Hfd, lookup_fd_of_nat in Hopen.
  assert (Hcases :
    ((nofile h <= 42)%nat /\ dup_ret s = -1 /\ k4 s = set_errno EBADF (k3 s)) \/
    ((42 < nofile h)%nat /\ fd = 42%nat /\ dup_ret s = 42 /\ k4 s = k3 s) \/
    ((42 < nofile h)%nat /\ fd <> 42%nat /\ dup_ret s = 42 /\
     k4 s = set_fd_table (<[42%nat := Sock (length (sockets k))]>
                            (fd_table (k3 s))) (k3 s))).
  { destruct (Z.leb_spec (Z.of_nat (nofile h)) 42);
      [|destruct (Z.eqb_spec (Z.of_nat fd) 42)]; injection Hdup as Hd Hk4.
    - left. repeat split; [lia|done..].
    - right; left. repeat split; [lia|lia|done..].
    - right; right. repeat split; [lia|lia|done..]. }
  assert (Hopen4 : lookup_fd (Z.of_nat fd) (k4 s) = Some (Sock (length (sockets k)))).
  { rewrite lookup_fd_of_nat.
    destruct Hcases as [(_ & _ & ->)|[(_ & _ & _ & ->)|(_ & Hne & _ & ->)]];
      simpl; try done.
    by rewrite lookup_insert_ne. }
  unfold sys_close in Hclose. rewrite Hopen4 in Hclose.
  injection Hclose as Hc Hk5. rewrite <- Hk5. simpl. rewrite Nat2Z.id.
  exists fd.
  destruct Hcases as [(Hn & Hd & Hk4)|[(Hn & H42 & Hd & Hk4)|(Hn & H42 & Hd & Hk4)]];
    rewrite Hk4; simpl; repeat split; try done; try lia.
  subst fd. by rewrite insert_id.
Qed.

End Setup.

(** ** Group membership *)

Lemma arg_lookup (argv : list string) (i : nat) :
  (i < length argv)%nat -> argv !! i = Some (arg argv i).
Proof.
  intros Hi. unfold arg.
  destruct (lookup_lt_is_Some_2 argv i Hi) as [x ->]. done.
Qed.

(** C2: a [setsockopt] call of a run is made on the descriptor that the
    run's [socket] call returned, which refers to the socket object just
    created; it is a [PACKET_ADD_MEMBERSHIP] request at level [SOL_PACKET]
    whose [packet_mreq] holds the index of the interface named by
    [argv[1]], type [PACKET_MR_MULTICAST], address length 6 and the address
    71:b3:d5:3a:6f:00.  When the call is refused, the run ends with
    [perror "cannot setsockopt"] and status 1, and contains no [dup2],
    [close] or [execvp]. *)
Theorem group_join (h : host) (argv : list string) (k : kstate) (e : event) :
  interfaces_ok h ->
  e ∈ res_trace (run h argv k) -> is_setsockopt (ev_call e) = true ->
  exists (fd : nat) (name : string) (idx : Z),
    argv !! 1%nat = Some name /\ interfaces h !! name = Some idx /\
    ev_call e
      = Setsockopt (Z.of_nat fd) Linux.SOL_PACKET Linux.PACKET_ADD_MEMBERSHIP
          {| mr_ifindex := idx; mr_type := Linux.PACKET_MR_MULTICAST;
             mr_alen := 6; mr_address := zappi_group ++ [x00; x00] |}
          Linux.sizeof_packet_mreq /\
    Ev (c_socket h) k (Some (Z.of_nat fd)) ∈ res_trace (run h argv k) /\
    fd_table (ev_pre e) !! fd = Some (Sock (length (sockets k))) /\
    sockets (ev_pre e) !! length (sockets k) = Some (fresh_socket h) /\
    (refused e ->
     exists (k' : kstate) (t : list event),
       run h argv k
         = Returned 1 k' (t ++ [e; Ev (Perror "cannot setsockopt") k' None]) /\
       is_Some (errno k') /\
       attempts is_dup2 (res_trace (run h argv k)) = false /\
       attempts is_close (res_trace (run h argv k)) = false /\
       attempts is_execvp (res_trace (run h argv k)) = false).
Proof.
  intros Hifs Hin Hcall. revert Hin.
  assert (Hcore : forall s : setup, requested h argv k s ->
    exists (fd : nat) (name : string) (idx : Z),
      sock s = Z.of_nat fd /\
      argv !! 1%nat = Some name /\ interfaces h !! name = Some idx /\
      c_join (sock s) (ifidx s)
        = Setsockopt (Z.of_nat fd) Linux.SOL_PACKET Linux.PACKET_ADD_MEMBERSHIP
            {| mr_ifindex := idx; mr_type := Linux.PACKET_MR_MULTICAST;
               mr_alen := 6; mr_address := zappi_group ++ [x00; x00] |}
            Linux.sizeof_packet_mreq /\
      fd_table (k2 s) !! fd = Some (Sock (length (sockets k))) /\
      sockets (k2 s) !! length (sockets k) = Some (fresh_socket h)).
  { intros s Hreq.
    destruct (requested_inv h argv k s Hreq)
      as (fd & Hfd & _ & Hidx & Hfd2 & Hs2 & _).
    destruct Hreq as [[[Hargc _] _] _].
    exists fd, (arg argv 1), (ifidx s).
    rewrite Hfd2, Hs2, lookup_insert_eq, lookup_app_r, Nat.sub_diag by lia.
    repeat split; try done.
    - apply arg_lookup. lia.
    - unfold c_join, group_request. rewrite Hfd, to_int_small; [done|].
      by apply (Hifs _ _ Hidx). }
  run_cases h argv k; intros Hin; pick_event Hin.
  - destruct (Hcore s) as (fd & name & idx & Hfd & ? & ? & -> & ? & ?);
      [by repeat split|].
    exists fd, name, idx. rewrite <- Hfd. repeat split; try done.
    + apply list_elem_of_here.
    + intros _. exists (k3 s), (t_if h argv k s). repeat split; try done.
      destruct (requested_inv h argv k s) as (? & _ & _ & _ & _ & _ & _ & Hr & _);
        [by repeat split|]. by apply Hr.
  - destruct (Hcore s) as (fd & name & idx & Hfd & ? & ? & -> & ? & ?);
      [by repeat split|].
    exists fd, name, idx. rewrite <- Hfd. repeat split; try done.
    + apply list_elem_of_here.
    + intros (r & Hr & Hlt). simplify_eq/=. lia.
  - destruct (Hcore s) as (fd & name & idx & Hfd & ? & ? & -> & ? & ?);
      [by repeat split|].
    exists fd, name, idx. rewrite <- Hfd. repeat split; try done.
    + apply list_elem_of_here.
    + intros (r & Hr & Hlt). simplify_eq/=. lia.
Qed.

Lemma group_join_witness :
  let e := Ev (c_join 3 2) (Demo.stdio_and_socket Demo.no_multicast) (Some (-1)) in
  exists (fd : nat) (name : string) (idx : Z),
    Demo.cmd !! 1%nat = Some name /\ interfaces Demo.no_multicast !! name = Some idx /\
    ev_call e
      = Setsockopt (Z.of_nat fd) Linux.SOL_PACKET Linux.PACKET_ADD_MEMBERSHIP
          {| mr_ifindex := idx; mr_type := Linux.PACKET_MR_MULTICAST;
             mr_alen := 6; mr_address := zappi_group ++ [x00; x00] |}
          Linux.sizeof_packet_mreq /\
    Ev (c_socket Demo.no_multicast) Demo.stdio (Some (Z.of_nat fd))
      ∈ res_trace (run Demo.no_multicast Demo.cmd Demo.stdio) /\
    fd_table (ev_pre e) !! fd = Some (Sock (length (sockets Demo.stdio))) /\
    sockets (ev_pre e) !! length (sockets Demo.stdio)
      = Some (fresh_socket Demo.no_multicast) /\
    (refused e ->
     exists (k' : kstate) (t : list event),
       run Demo.no_multicast Demo.cmd Demo.stdio
         = Returned 1 k' (t ++ [e; Ev (Perror "cannot setsockopt") k' None]) /\
       is_Some (errno k') /\
       attempts is_dup2 (res_trace (run Demo.no_multicast Demo.cmd Demo.stdio)) = false /\
       attempts is_close (res_trace (run Demo.no_multicast Demo.cmd Demo.stdio)) = false /\
       attempts is_execvp (res_trace (run Demo.no_multicast Demo.cmd Demo.stdio)) = false).
Proof.
  apply (group_join Demo.no_multicast Demo.cmd Demo.stdio).
  - apply map_Forall_singleton. lia.
  - apply list_elem_of_lookup. exists 2%nat. vm_compute. reflexivity.
  - reflexivity.
Defined.

(** C10: a run in which [if_nametoindex] returned 0, or [setsockopt] was
    refused, returns status 1 without any [close] call; in its final state
    the descriptor that [socket] returned is still open and refers to the
    socket object the run created. *)
Theorem failure_leaves_socket_open (h : host) (argv : list string) (k : kstate)
    (e : event) :
  e ∈ res_trace (run h argv k) ->
  (is_if_nametoindex (ev_call e) = true /\ ev_ret e = Some 0) \/
  (is_setsockopt (ev_call e) = true /\ refused e) ->
  exists (k' : kstate) (fd : nat),
    run h argv k = Returned 1 k' (res_trace (run h argv k)) /\
    attempts is_close (res_trace (run h argv k)) = false /\
    Ev (c_socket h) k (Some (Z.of_nat fd)) ∈ res_trace (run h argv k) /\
    fd_table k' !! fd = Some (Sock (length (sockets k))) /\
    sockets k' !! length (sockets k) = Some (fresh_socket h).
Proof.
  intros Hin Hfail. revert Hin.
  run_cases h argv k; intros Hin; pick_event Hin;
    destruct Hfail as [[Hc Hr]|[Hc (r & Hr & Hlt)]]; simplify_eq/=; try lia.
  - destruct (resolved_inv h argv k s) as (fd & Hfd & _ & Hk1 & Hfd2 & Hs2);
      [by repeat split|].
    exists (k2 s), fd. rewrite Hfd2, Hs2, Hk1, Hfd. simpl.
    rewrite lookup_insert_eq, lookup_app_r, Nat.sub_diag by lia.
    repeat split; try done. apply list_elem_of_here.
  - destruct (requested_inv h argv k s)
      as (fd & Hfd & _ & _ & Hfd2 & Hs2 & Hfd3 & Hrej' & _); [by repeat split|].
    pose proof (Hrej' Hrej) as [Hs3 _].
    exists (k3 s), fd. rewrite Hfd3, Hs3, Hfd2, Hs2, Hfd.
    rewrite lookup_insert_eq, lookup_app_r, Nat.sub_diag by lia.
    repeat split; try done. apply list_elem_of_here.
Qed.

Lemma failure_leaves_socket_open_witness :
  exists (k' : kstate) (fd : nat),
    run Demo.lan Demo.cmd_no_such_if Demo.stdio
      = Returned 1 k' (res_trace (run Demo.lan Demo.cmd_no_such_if Demo.stdio)) /\
    attempts is_close (res_trace (run Demo.lan Demo.cmd_no_such_if Demo.stdio))
      = false /\
    Ev (c_socket Demo.lan) Demo.stdio (Some (Z.of_nat fd))
      ∈ res_trace (run Demo.lan Demo.cmd_no_such_if Demo.stdio) /\
    fd_table k' !! fd = Some (Sock (length (sockets Demo.stdio))) /\
    sockets k' !! length (sockets Demo.stdio) = Some (fresh_socket Demo.lan).
Proof.
  apply (failure_leaves_socket_open Demo.lan Demo.cmd_no_such_if Demo.stdio
           (Ev (If_nametoindex "doesnotexist0")
               (Demo.stdio_and_socket Demo.lan) (Some 0))).
  - apply list_elem_of_lookup. exists 1%nat. vm_compute. reflexivity.
  - left. split; reflexivity.
Defined.

(** ** Image replacement *)






Section Execvp.
Variable h : host.







End Execvp.




(** ** Descriptor relocation *)

Ltac events_of Hin :=
  apply list_elem_of_In in Hin; simpl in Hin;
  unfold c_socket, c_if, c_join, c_exec in Hin;
  repeat (destruct Hin as [Hin|Hin]; [try discriminate Hin|]);
  try contradiction.

(** A descriptor of a well-formed initial table does not refer to the
    socket object the run creates. *)
Lemma fds_ok_fresh (k : kstate) (fd : nat) :
  fds_ok k -> fd_table k !! fd <> Some (Sock (length (sockets k))).
Proof. intros Hok Hfd. apply Hok in Hfd. simpl in Hfd. lia. Qed.

(** C9: when [socket] returns descriptor 42 and the run reaches the
    relocation, [dup2 (42, 42)] returns 42 and leaves the state as it is
    (its entry state [k3] is the entry state of [close]), descriptor 42
    being the only one that refers to the socket; [close (42)] returns 0;
    and [execvp] is entered in a state [k5] whose descriptor table is the
    initial one: slot 42 is empty and no descriptor refers to the socket.
    (Such a run starts with descriptors 0 to 41 all open.) *)
Theorem socket_at_42_is_lost (h : host) (argv : list string) (k : kstate) :
  fds_ok k ->
  Ev (c_socket h) k (Some 42) ∈ res_trace (run h argv k) ->
  attempts is_dup2 (res_trace (run h argv k)) = true ->
  exists (k3 k5 : kstate) (before after : list event) (r : option Z),
    res_trace (run h argv k)
      = before ++ [Ev (Dup2 42 42) k3 (Some 42); Ev (Close 42) k3 (Some 0);
                   Ev (c_exec argv) k5 r] ++ after /\
    sys_dup2 h 42 42 k3 = (42, k3) /\
    open_at (length (sockets k)) [42%nat] k3 /\
    open_at (length (sockets k)) [] k5 /\
    fd_table k5 !! 42%nat = None /\
    fd_table k5 = fd_table k /\
    (forall fd : nat, (fd < 42)%nat -> is_Some (fd_table k !! fd)).
Proof.
  intros Hwf Hin Hreloc. revert Hin Hreloc.
  assert (Hcore : forall s : setup, relocated h argv k s -> sock s = 42 ->
    dup_ret s = 42 /\ k4 s = k3 s /\ close_ret s = 0 /\
    open_at (length (sockets k)) [42%nat] (k3 s) /\
    open_at (length (sockets k)) [] (k5 s) /\
    fd_table (k5 s) !! 42%nat = None /\
    fd_table (k5 s) = fd_table k /\
    (forall fd : nat, (fd < 42)%nat -> is_Some (fd_table k !! fd))).
  { intros s Hrel H42.
    destruct (relocated_inv h argv k s Hrel)
      as (fd & Hfd & Hfree & Hfd3 & _ & _ & Hc & Hfd5 & Hsame & _).
    assert (fd = 42%nat) as -> by lia.
    destruct (Hsame eq_refl) as [Hd Hk4].
    destruct (lowest_free_Some h _ _ Hfree) as [Hnone _].
    assert (Hback : fd_table (k5 s) = fd_table k).
    { by rewrite Hfd5, Hk4, Hfd3, delete_insert_eq, delete_id. }
    repeat split; try done.
    - rewrite Hfd3. intros Hx. apply list_elem_of_singleton.
      destruct (decide (fd = 42%nat)) as [|Hne]; [done|].
      rewrite lookup_insert_ne in Hx by done. by apply fds_ok_fresh in Hx.
    - intros ->%list_elem_of_singleton. by rewrite Hfd3, lookup_insert_eq.
    - rewrite Hback. intros Hx. by apply fds_ok_fresh in Hx.
    - intros Hx. by apply not_elem_of_nil in Hx.
    - by rewrite Hback.
    - intros Hx. by apply (lowest_free_below h _ _ _ Hfree). }
  run_cases h argv k; intros Hin Hreloc; try discriminate Hreloc;
    events_of Hin; injection Hin as H42;
    (destruct (Hcore s) as (Hd & Hk4 & Hc & Hk3 & Hk5 & Hnone & Hback & Hfull);
      [by repeat split|done|]);
    rewrite H42, Hd, Hk4 in Hdup; rewrite H42, Hd, Hk4, Hc.
  - eexists (k3 s), (k5 s), [_; _; _], [_], _. by split_and!.
  - eexists (k3 s), (k5 s), [_; _; _], [], _. by split_and!.
Qed.

Lemma socket_at_42_is_lost_witness :
  exists (k3 k5 : kstate) (before after : list event) (r : option Z),
    res_trace (run Demo.lan Demo.cmd Demo.crowded)
      = before ++ [Ev (Dup2 42 42) k3 (Some 42); Ev (Close 42) k3 (Some 0);
                   Ev (c_exec Demo.cmd) k5 r] ++ after /\
    sys_dup2 Demo.lan 42 42 k3 = (42, k3) /\
    open_at (length (sockets Demo.crowded)) [42%nat] k3 /\
    open_at (length (sockets Demo.crowded)) [] k5 /\
    fd_table k5 !! 42%nat = None /\
    fd_table k5 = fd_table Demo.crowded /\
    (forall fd : nat, (fd < 42)%nat -> is_Some (fd_table Demo.crowded !! fd)).
Proof.
  apply (socket_at_42_is_lost Demo.lan Demo.cmd Demo.crowded).
  - apply (bool_decide_eq_true_1 (fds_ok Demo.crowded)). vm_compute. reflexivity.
  - apply list_elem_of_lookup. exists 0%nat. vm_compute. reflexivity.
  - vm_compute. reflexivity.
Defined.

(** X1: the hand-over holds whenever [socket] returns a descriptor other
    than 42 and slot 42 is below the descriptor limit: at every [execvp]
    call descriptor 42, and no other, refers to the socket, which is a
    member of the group on the interface of [argv[1]]. *)
Lemma handoff_when_slot_differs (h : host) (argv : list string) (k : kstate) :
  fds_ok k -> (42 < nofile h)%nat -> lowest_free h (fd_table k) <> Some 42%nat ->
  handoff_invariant h argv k (res_trace (run h argv k)).
Proof.
  intros Hwf Hlim Hslot.
  assert (Hcore : forall s : setup, relocated h argv k s ->
    open_at (length (sockets k)) [42%nat] (k5 s) /\
    exists idx : Z,
      interfaces h !! arg argv 1 = Some idx /\
      sockets (k5 s) !! length (sockets k)
        = Some (add_membership (group_request idx) (fresh_socket h))).
  { intros s Hrel.
    destruct (relocated_inv h argv k s Hrel)
      as (fd & Hfd & Hfree & Hfd3 & Hs3 & Hs5 & _ & Hfd5 & _ & Hdup & _).
    destruct (Hdup Hlim) as [_ Hfd4].
    assert (Hne : fd <> 42%nat) by congruence.
    destruct Hrel as [Hreq _].
    destruct (requested_inv h argv k s Hreq) as (_ & _ & _ & Hidx & _).
    split.
    - intros x. rewrite Hfd5, Hfd4, Hfd3, list_elem_of_singleton. split.
      + intros Hx. destruct (decide (x = 42%nat)) as [|H42]; [done|].
        destruct (decide (x = fd)) as [->|Hxfd].
        * by rewrite lookup_delete_eq in Hx.
        * rewrite lookup_delete_ne, !lookup_insert_ne in Hx by done.
          by apply fds_ok_fresh in Hx.
      + intros ->. by rewrite lookup_delete_ne, lookup_insert_eq.
    - exists (ifidx s). split; [done|].
      by rewrite Hs5, Hs3, lookup_app_r, Nat.sub_diag by lia. }
  unfold handoff_invariant.
  run_cases h argv k; intros ev Hin Hcall; pick_event Hin;
    apply Hcore; by repeat split.
Qed.

(** C1, at a run where it fails: started with descriptors 0 to 41 open,
    the program gets descriptor 42 from [socket], and the target program
    is started on the initial descriptor table: slot 42 is empty, no
    descriptor refers to the socket, and the hand-over does not hold. *)
Theorem handoff_lost_at_42 :
  exists k5 : kstate,
    run Demo.lan Demo.cmd Demo.crowded
      = Replaced {| img_path := "/bin/echo"; img_argv := ["echo"; "hello"]%string |}
          k5 (res_trace (run Demo.lan Demo.cmd Demo.crowded)) /\
    res_trace (run Demo.lan Demo.cmd Demo.crowded) !! 0%nat
      = Some (Ev (c_socket Demo.lan) Demo.crowded (Some 42)) /\
    last (res_trace (run Demo.lan Demo.cmd Demo.crowded))
      = Some (Ev (c_exec Demo.cmd) k5 None) /\
    fd_table k5 = fd_table Demo.crowded /\
    fd_table k5 !! 42%nat = None /\
    ~ handoff_invariant Demo.lan Demo.cmd Demo.crowded
        (res_trace (run Demo.lan Demo.cmd Demo.crowded)).
Proof.
  eexists. split_and!; [by vm_compute..|].
  intros Hinv.
  destruct (Hinv (Ev (c_exec Demo.cmd)
                     (res_state (run Demo.lan Demo.cmd Demo.crowded)) None))
    as [Hopen _].
  - apply list_elem_of_lookup. exists 5%nat. by vm_compute.
  - reflexivity.
  - assert (Hfd : 42%nat ∈ [42%nat]) by apply list_elem_of_here.
    apply Hopen in Hfd. vm_compute in Hfd. discriminate Hfd.
Qed.

(** ** Failures *)

(** Every return of [main] is status 1, right after a diagnostic. *)
Lemma every_exit_is_diagnosed (h : host) (argv : list string) (k k' : kstate)
    (a : Z) (t : list event) :
  run h argv k = Returned a k' t ->
  a = 1 /\ exists (t' : list event) (e : event),
    t = t' ++ [e] /\ is_diagnostic (ev_call e) = true /\ ev_pre e = k'.
Proof.
  run_cases h argv k; intros Hrun; simplify_eq; (split; [done|]).
  - by eexists [], _.
  - by eexists [_], _.
  - by eexists [_; _], _.
  - by eexists [_; _; _], _.
  - by eexists [_; _; _; _; _; _], _.
Qed.

(** X5: the failures the program tests for end the run: a refused
    [socket], [setsockopt] or [execvp], or an [if_nametoindex] that returned
    0, is followed by one [perror], entered in the final state, and the
    return of status 1. *)
Lemma checked_failures_are_terminal (h : host) (argv : list string)
    (k : kstate) (e : event) :
  e ∈ res_trace (run h argv k) ->
  (is_socket (ev_call e) = true /\ refused e) \/
  (is_if_nametoindex (ev_call e) = true /\ ev_ret e = Some 0) \/
  (is_setsockopt (ev_call e) = true /\ refused e) \/
  (is_execvp (ev_call e) = true /\ refused e) ->
  exists (k' : kstate) (t : list event) (msg : string),
    run h argv k = Returned 1 k' (t ++ [e; Ev (Perror msg) k' None]).
Proof.
  intros Hin Hfail. revert Hin.
  run_cases h argv k; intros Hin; pick_event Hin;
    destruct Hfail as [[Hc Hr]|[[Hc Hr]|[[Hc Hr]|[Hc Hr]]]]; try done;
    try (destruct Hr as (r & Hr & Hlt)); simplify_eq/=; try lia.
  - by eexists _, [], _.
  - by eexists _, [_], _.
  - by eexists _, [_; _], _.
  - by eexists _, [_; _; _; _; _], _.
Qed.

(** C8, at a run where it fails: under a descriptor limit of 32, [dup2]
    onto slot 42 fails with [EBADF]; the run prints nothing, closes the
    socket and starts the target program, which finds the initial
    descriptor table and no socket. *)
Theorem dup2_failure_ignored :
  exists k3 k5 : kstate,
    res_trace (run Demo.limited Demo.cmd Demo.stdio) !! 3%nat
      = Some (Ev (Dup2 3 42) k3 (Some (-1))) /\
    sys_dup2 Demo.limited 3 42 k3 = (-1, set_errno EBADF k3) /\
    attempts is_diagnostic (res_trace (run Demo.limited Demo.cmd Demo.stdio))
      = false /\
    run Demo.limited Demo.cmd Demo.stdio
      = Replaced {| img_path := "/bin/echo"; img_argv := ["echo"; "hello"]%string |}
          k5 (res_trace (run Demo.limited Demo.cmd Demo.stdio)) /\
    errno k5 = Some EBADF /\
    fd_table k5 = fd_table Demo.stdio /\
    ~ handoff_invariant Demo.limited Demo.cmd Demo.stdio
        (res_trace (run Demo.limited Demo.cmd Demo.stdio)).
Proof.
  eexists _, _. split_and!; [by vm_compute..|].
  intros Hinv.
  destruct (Hinv (Ev (c_exec Demo.cmd)
                     (res_state (run Demo.limited Demo.cmd Demo.stdio)) None))
    as [Hopen _].
  - apply list_elem_of_lookup. exists 5%nat. by vm_compute.
  - reflexivity.
  - assert (Hfd : 42%nat ∈ [42%nat]) by apply list_elem_of_here.
    apply Hopen in Hfd. vm_compute in Hfd. discriminate Hfd.
Qed.

Lemma handoff_when_slot_differs_witness :
  handoff_invariant Demo.lan Demo.cmd Demo.stdio
    (res_trace (run Demo.lan Demo.cmd Demo.stdio)).
Proof.
  apply (handoff_when_slot_differs Demo.lan Demo.cmd Demo.stdio).
  - apply (bool_decide_eq_true_1 (fds_ok Demo.stdio)). vm_compute. reflexivity.
  - simpl. lia.
  - vm_compute. discriminate.
Defined.

Lemma checked_failures_are_terminal_witness :
  exists (k' : kstate) (t : list event) (msg : string),
    run Demo.lan Demo.cmd_no_such_prog Demo.stdio
      = Returned 1 k'
          (t ++ [Ev (Execvp "nothing" ["nothing"%string])
                    Demo.stdio_and_socket_at_42 (Some (-1));
                 Ev (Perror msg) k' None]).
Proof.
  apply (checked_failures_are_terminal Demo.lan Demo.cmd_no_such_prog Demo.stdio).
  - apply list_elem_of_lookup. exists 5%nat. vm_compute. reflexivity.
  - right; right; right. split; [reflexivity|].
    exists (-1). split; [reflexivity|lia].
Defined.

(** ** The order of the calls *)

(** X4: a run makes its calls in one fixed order, each function at most
    once.  A run that returns, returns status 1, and its calls are an
    initial part of socket, if_nametoindex, setsockopt, dup2, close, execvp
    (none for a short command line) followed by a single diagnostic; a run
    that replaces the image made those six calls and printed nothing. *)
Theorem call_sequences (h : host) (argv : list string) (k : kstate) :
  match run h argv k with
  | Returned a _ t =>
      a = 1 /\
      (calls t = ["fprintf"] \/
       calls t = ["socket"; "perror"] \/
       calls t = ["socket"; "if_nametoindex"; "perror"] \/
       calls t = ["socket"; "if_nametoindex"; "setsockopt"; "perror"] \/
       calls t = ["socket"; "if_nametoindex"; "setsockopt"; "dup2"; "close";
                  "execvp"; "perror"])%string
  | Replaced _ _ t =>
      calls t = ["socket"; "if_nametoindex"; "setsockopt"; "dup2"; "close";
                 "execvp"]%string
  end.
Proof. run_cases h argv k; try (split; [done|]); auto 10. Qed.

(** ** When the target program is started *)







(** X7: whenever a run calls [execvp], whatever became of the descriptors,
    the socket object it created is the last of the socket objects, it has
    the requested family, type and protocol and exactly one membership, the
    group on the interface of [argv[1]], which the host accepted; the
    socket objects that existed before are untouched. *)
Theorem configured_before_exec (h : host) (argv : list string) (k : kstate)
    (e : event) :
  e ∈ res_trace (run h argv k) -> is_execvp (ev_call e) = true ->
  exists idx : Z,
    interfaces h !! arg argv 1 = Some idx /\ idx <> 0 /\
    membership_refusal h (group_request idx) = None /\
    sockets (ev_pre e)
      = sockets k ++ [add_membership (group_request idx) (fresh_socket h)] /\
    so_mclist (add_membership (group_request idx) (fresh_socket h))
      = [group_request idx].
Proof.
  intros Hin Hcall. revert Hin.
  assert (Hcore : forall s : setup, relocated h argv k s ->
    exists idx : Z,
      interfaces h !! arg argv 1 = Some idx /\ idx <> 0 /\
      membership_refusal h (group_request idx) = None /\
      sockets (k5 s)
        = sockets k ++ [add_membership (group_request idx) (fresh_socket h)] /\
      so_mclist (add_membership (group_request idx) (fresh_socket h))
        = [group_request idx]).
  { intros s Hrel.
    destruct (relocated_inv h argv k s Hrel) as (_ & _ & _ & _ & Hs3 & Hs5 & _).
    destruct Hrel as [Hreq [Hok _]].
    destruct (requested_inv h argv k s Hreq) as (_ & _ & _ & Hidx & _ & _ & _ & _ & Hacc).
    destruct Hreq as [_ [Hnz _]].
    exists (ifidx s). split_and!; try done.
    - by apply Hacc.
    - by rewrite Hs5, Hs3. }
  run_cases h argv k; intros Hin; pick_event Hin; apply Hcore; by repeat split.
Qed.

Lemma configured_before_exec_witness :
  let e := Ev (c_exec Demo.cmd) Demo.stdio_and_socket_at_42 None in
  exists idx : Z,
    interfaces Demo.lan !! arg Demo.cmd 1 = Some idx /\ idx <> 0 /\
    membership_refusal Demo.lan (group_request idx) = None /\
    sockets (ev_pre e)
      = sockets Demo.stdio
          ++ [add_membership (group_request idx) (fresh_socket Demo.lan)] /\
    so_mclist (add_membership (group_request idx) (fresh_socket Demo.lan))
      = [group_request idx].
Proof.
  apply (configured_before_exec Demo.lan Demo.cmd Demo.stdio).
  - apply list_elem_of_lookup. exists 5%nat. vm_compute. reflexivity.
  - reflexivity.
Defined.

(** ** What a run leaves behind *)

(** The descriptor table after the relocation: the initial one when
    [dup2] failed, else the initial one with the socket at 42 and the
    descriptor [socket] returned removed. *)
Lemma relocated_table (h : host) (argv : list string) (k : kstate) (s : setup) :
  relocated h argv k s ->
  exists fd : nat,
    sock s = Z.of_nat fd /\ fd_table k !! fd = None /\ (fd < nofile h)%nat /\
    errno (k5 s) = errno (k4 s) /\
    ((nofile h <= 42)%nat ->
     dup_ret s = -1 /\ errno (k4 s) = Some EBADF /\ fd_table (k5 s) = fd_table k) /\
    ((42 < nofile h)%nat ->
     dup_ret s = 42 /\
     fd_table (k5 s)
       = delete fd (<[42%nat := Sock (length (sockets k))]>
                      (<[fd := Sock (length (sockets k))]> (fd_table k)))).
Proof.
  intros Hrel.
  destruct (relocated_inv h argv k s Hrel)
    as (fd & Hfd & Hfree & Hfd3 & _ & _ & Hc & Hfd5 & _ & Hhigh & Hlow).
  destruct (lowest_free_Some h _ _ Hfree) as [Hnone Hlim].
  destruct Hrel as (_ & _ & _ & Hclose).
  exists fd. split_and!; try done.
  - unfold sys_close, fail in Hclose.
    destruct (lookup_fd (sock s) (k4 s)); injection Hclose as Hr Hk5;
      [by rewrite <- Hk5|lia].
  - intros Hn. destruct (Hlow Hn) as [Hd Hk4]. split_and!; try done.
    + by rewrite Hk4.
    + rewrite Hfd5, Hk4. simpl. by rewrite Hfd3, delete_insert_eq, delete_id.
  - intros Hn. destruct (Hhigh Hn) as [Hd Hfd4]. split; [done|].
    by rewrite Hfd5, Hfd4, Hfd3.
Qed.

(** X6: under a descriptor limit of 42 or less, no run hands the socket
    over: [dup2] onto slot 42 returns -1, and every [execvp] call is entered
    with [errno = EBADF] and the initial descriptor table. *)
Theorem no_handoff_under_low_limit (h : host) (argv : list string) (k : kstate)
    (e : event) :
  (nofile h <= 42)%nat ->
  e ∈ res_trace (run h argv k) -> is_execvp (ev_call e) = true ->
  fd_table (ev_pre e) = fd_table k /\
  errno (ev_pre e) = Some EBADF /\
  exists (fd : nat) (k3 : kstate),
    (fd < nofile h)%nat /\
    Ev (Dup2 (Z.of_nat fd) 42) k3 (Some (-1)) ∈ res_trace (run h argv k).
Proof.
  intros Hlim Hin Hcall. revert Hin.
  run_cases h argv k; intros Hin; pick_event Hin;
    (destruct (relocated_table h argv k s)
       as (fd & Hfd & _ & Hfdlim & Herr & Hlow & _); [by repeat split|]);
    destruct (Hlow Hlim) as (Hd & Hbadf & Htable);
    (split_and!; [done|by rewrite Herr|]);
    exists fd, (k3 s); (split; [done|]); rewrite <- Hfd, <- Hd;
    apply list_elem_of_lookup; by exists 3%nat.
Qed.

Lemma no_handoff_under_low_limit_witness :
  let e := Ev (c_exec Demo.cmd)
             {| fd_table := Demo.table 3;
                sockets := [add_membership (group_request 2)
                              (fresh_socket Demo.limited)];
                errno := Some EBADF |} None in
  fd_table (ev_pre e) = fd_table Demo.stdio /\
  errno (ev_pre e) = Some EBADF /\
  exists (fd : nat) (k3 : kstate),
    (fd < nofile Demo.limited)%nat /\
    Ev (Dup2 (Z.of_nat fd) 42) k3 (Some (-1))
      ∈ res_trace (run Demo.limited Demo.cmd Demo.stdio).
Proof.
  apply (no_handoff_under_low_limit Demo.limited Demo.cmd Demo.stdio).
  - simpl. lia.
  - apply list_elem_of_lookup. exists 5%nat. vm_compute. reflexivity.
  - reflexivity.
Defined.

(** X2: what a run does to the process state.  Every descriptor of the
    initial table other than 42 is still open on the same file at the end;
    a descriptor open at the end is either one of the initial table,
    unchanged, or refers to the socket the run created; and the socket
    objects at the end are the initial ones followed by at most one new
    one. *)
Theorem footprint (h : host) (argv : list string) (k : kstate) :
  (forall (fd : nat) (f : file),
     fd <> 42%nat -> fd_table k !! fd = Some f ->
     fd_table (res_state (run h argv k)) !! fd = Some f) /\
  (forall (fd : nat) (f : file),
     fd_table (res_state (run h argv k)) !! fd = Some f ->
     fd_table k !! fd = Some f \/ f = Sock (length (sockets k))) /\
  (exists new : list socket,
     sockets (res_state (run h argv k)) = sockets k ++ new /\
     (length new <= 1)%nat).
Proof.
  assert (Hins : forall (m m' : gmap nat file) (fd0 : nat) (x : file),
    m !! fd0 = None -> m' = <[fd0 := x]> m ->
    (forall fd f, m !! fd = Some f -> m' !! fd = Some f) /\
    (forall fd f, m' !! fd = Some f -> m !! fd = Some f \/ f = x)).
  { intros m m' fd0 x Hnone ->. split; intros fd f Hfd.
    - rewrite lookup_insert_ne; [done|congruence].
    - apply lookup_insert_Some in Hfd as [[_ <-]|[_ Hfd]]; auto. }
  assert (Hrel : forall s : setup, relocated h argv k s ->
    (forall fd f, fd <> 42%nat -> fd_table k !! fd = Some f ->
                  fd_table (k5 s) !! fd = Some f) /\
    (forall fd f, fd_table (k5 s) !! fd = Some f ->
                  fd_table k !! fd = Some f \/ f = Sock (length (sockets k))) /\
    exists new, sockets (k5 s) = sockets k ++ new /\ (length new <= 1)%nat).
  { intros s Hs.
    destruct (relocated_table h argv k s Hs)
      as (fd0 & _ & Hnone & _ & _ & Hlow & Hhigh).
    destruct (relocated_inv h argv k s Hs) as (_ & _ & _ & _ & Hs3 & Hs5 & _).
    split_and!.
    - intros fd f H42 Hfd.
      destruct (decide (nofile h <= 42)%nat) as [Hn|Hn].
      + destruct (Hlow Hn) as (_ & _ & ->). done.
      + destruct (Hhigh ltac:(lia)) as (_ & ->).
        assert (fd <> fd0) by congruence.
        by rewrite lookup_delete_ne, !lookup_insert_ne.
    - intros fd f Hfd.
      destruct (decide (nofile h <= 42)%nat) as [Hn|Hn].
      + destruct (Hlow Hn) as (_ & _ & Ht). rewrite Ht in Hfd. auto.
      + destruct (Hhigh ltac:(lia)) as (_ & Ht). rewrite Ht in Hfd.
        apply lookup_delete_Some in Hfd as [_ Hfd].
        apply lookup_insert_Some in Hfd as [[_ <-]|[_ Hfd]]; [auto|].
        apply lookup_insert_Some in Hfd as [[_ <-]|[_ Hfd]]; auto.
    - eexists [_]. rewrite Hs5, Hs3. split; [done|simpl; lia]. }
  run_cases h argv k.
  - split_and!; auto. exists []. split; [by rewrite app_nil_r|simpl; lia].
  - destruct (sys_socket_refused h _ _ _ _ _ _ Hsock Hneg) as (_ & e & ->).
    split_and!; auto. exists []. split; [by rewrite app_nil_r|simpl; lia].
  - destruct (resolved_inv h argv k s) as (fd0 & _ & Hfree & Hk1 & Hfd2 & Hs2);
      [by repeat split|].
    destruct (lowest_free_Some h _ _ Hfree) as [Hnone _].
    rewrite Hfd2, Hs2, Hk1. simpl.
    destruct (Hins (fd_table k) _ fd0 (Sock (length (sockets k))) Hnone eq_refl)
      as [Hkeep Honly].
    split_and!; [eauto..|]. eexists [_]. split; [done|simpl; lia].
  - destruct (requested_inv h argv k s)
      as (fd0 & _ & Hfree & _ & Hfd2 & Hs2 & Hfd3 & Hrej' & _); [by repeat split|].
    pose proof (Hrej' Hrej) as [Hs3 _].
    destruct (lowest_free_Some h _ _ Hfree) as [Hnone _].
    rewrite Hfd3, Hs3, Hfd2, Hs2.
    destruct (Hins (fd_table k) _ fd0 (Sock (length (sockets k))) Hnone eq_refl)
      as [Hkeep Honly].
    split_and!; [eauto..|]. eexists [_]. split; [done|simpl; lia].
  - apply Hrel. by repeat split.
  - apply Hrel. by repeat split.
Qed.

Lemma footprint_witness :
  fd_table (res_state (run Demo.lan Demo.cmd Demo.stdio)) !! 2%nat = Some Inherited.
Proof.
  apply (proj1 (footprint Demo.lan Demo.cmd Demo.stdio)).
  - lia.
  - reflexivity.
Defined.
